(** * The [@Pipe] decorator handler of ngtsc

    A shallow embedding of
    [packages/compiler-cli/src/ngtsc/annotations/src/pipe.ts]: the three
    methods [detect], [analyze] and [compile] of [PipeDecoratorHandler].

    The handler is written against collaborators that live in other
    packages (the TypeScript AST, the partial evaluator, the reflection
    host, the scope registry, the render3 pipe compiler).  Their node and
    value types are kept abstract, and their functions are gathered in the
    class [Imports] and in the handler record, so that every statement
    below holds for all implementations of them.  The module [Scenario]
    supplies one implementation, on which the handler runs and the
    general statements are instantiated. *)

From Stdlib Require Import String List Bool.
From stdpp Require Import base option list gmap strings.
Import ListNotations.
Local Open Scope string_scope.
Local Open Scope list_scope.

(** ** Data *)

(** The part of the [typescript] AST that the handler reads. *)
Module ts.
Record Identifier := { text : string }.

(** [ts.ClassDeclaration]: the handler reads [name] only; [members] is
    what the reflection host looks at when it resolves the constructor. *)
Record ClassDeclaration {ClassElement : Type} := {
  name : option Identifier;
  members : list ClassElement
}.
Arguments ClassDeclaration : clear implicits.
End ts.

(** [Decorator] of [../../reflection], with the fields [pipe.ts] reads. *)
Module Decorator.
Record t {DecoratorNode Expression : Type} := {
  name : string;
  node : DecoratorNode;
  args : option (list Expression)
}.
Arguments t : clear implicits.
End Decorator.

(** [new Reference(clazz)]. *)
Module Reference.
Record t {T : Type} := { node : T }.
Arguments t : clear implicits.
End Reference.

(** The argument of [registerPipe]: [{ref, name: pipeName}]. *)
Module ScopePipe.
Record t {T : Type} := { ref : Reference.t T; name : string }.
Arguments t : clear implicits.
End ScopePipe.

(** [new WrappedNodeExpr(clazz.name)]. *)
Module WrappedNodeExpr.
Record t {T : Type} := { node : T }.
Arguments t : clear implicits.
End WrappedNodeExpr.

(** [R3PipeMetadata], as [analyze] fills it in. *)
Module R3PipeMetadata.
Record t {Dep : Type} := {
  name : string;
  type : WrappedNodeExpr.t ts.Identifier;
  pipeName : string;
  deps : list Dep;
  pure : bool
}.
Arguments t : clear implicits.
End R3PipeMetadata.

(** [PipeHandlerData], declared at the top of [pipe.ts]; [null] is [None]. *)
Module PipeHandlerData.
Record t {Dep Statement : Type} := {
  meta : R3PipeMetadata.t Dep;
  metadataStmt : option Statement
}.
Arguments t : clear implicits.
End PipeHandlerData.

Module AnalysisOutput.
Record t {A : Type} := { analysis : A }.
Arguments t : clear implicits.
End AnalysisOutput.

Module DetectResult.
Record t {Node M : Type} := { trigger : Node; metadata : M }.
Arguments t : clear implicits.
End DetectResult.

(** What [compilePipeFromMetadata] returns, as [compile] reads it. *)
Module R3PipeDef.
Record t {E S T : Type} := { expression : E; type : T; statements : list S }.
Arguments t : clear implicits.
End R3PipeDef.

Module CompileResult.
Record t {E S T : Type} := {
  name : string;
  initializer : E;
  statements : list S;
  type : T
}.
Arguments t : clear implicits.
End CompileResult.

(** Modelled from the spec: the [ErrorCode] enum of [../../diagnostics],
    which is not part of the sources at hand.  The first six are the codes
    [analyze] raises, under the names [pipe.ts] uses; the spec calls them
    AnonymousDeclaration, AnnotationNotInvoked, AnnotationArityWrong,
    AnnotationArgumentNotLiteral, RequiredFieldMissing and FieldWrongType.
    The seventh is the spec's DependencyResolutionFailed, raised only by
    the dependency resolver. *)
Inductive ErrorCode :=
| DECORATOR_ON_ANONYMOUS_CLASS
| DECORATOR_NOT_CALLED
| DECORATOR_ARITY_WRONG
| DECORATOR_ARG_NOT_LITERAL
| PIPE_MISSING_NAME
| VALUE_HAS_WRONG_TYPE
| DEPENDENCY_RESOLUTION_FAILED.

(** The node a diagnostic points at: the class, the decorator or an
    expression (all of them [ts.Node] in the source). *)
Inductive DiagnosticNode {C D E : Type} :=
| AtClass (clazz : C)
| AtDecorator (node : D)
| AtExpression (expr : E).
Arguments DiagnosticNode : clear implicits.

Module FatalDiagnosticError.
Record t {C D E : Type} := {
  code : ErrorCode;
  node : DiagnosticNode C D E;
  message : string
}.
Arguments t : clear implicits.
End FatalDiagnosticError.

(** Modelled from the spec: the result of constant evaluation, "one of
    string, boolean, number, structured-object, declaration-reference", or
    unknown.  [analyze] only asks whether a value is a string or a
    boolean. *)
Inductive ResolvedValue {Number Object Ref : Type} :=
| VString (s : string)
| VBoolean (b : bool)
| VNumber (n : Number)
| VObject (o : Object)
| VReference (r : Ref)
| VUnknown.
Arguments ResolvedValue : clear implicits.

(** ** The handler *)

Section PipeDecoratorHandler.

(** Node types of the [typescript] package. *)
Context {Expression DecoratorNode ClassElement : Type}.
(** Values of the partial evaluator. *)
Context {Number Object Ref : Type}.
(** Services of ngtsc. *)
Context {ReflectionHost Registry : Type}.
(** The output AST of [@angular/compiler]. *)
Context {OExpression OType Statement R3DependencyMetadata : Type}.

Local Abbreviation ClassDeclaration := (ts.ClassDeclaration ClassElement).
Local Abbreviation Decorator := (Decorator.t DecoratorNode Expression).
Local Abbreviation ScopePipe := (ScopePipe.t ClassDeclaration).
Local Abbreviation Value := (ResolvedValue Number Object Ref).
Local Abbreviation Diagnostic :=
  (FatalDiagnosticError.t ClassDeclaration DecoratorNode Expression).
Local Abbreviation R3PipeMetadata := (R3PipeMetadata.t R3DependencyMetadata).
Local Abbreviation PipeHandlerData :=
  (PipeHandlerData.t R3DependencyMetadata Statement).
Local Abbreviation R3PipeDef := (R3PipeDef.t OExpression Statement OType).
Local Abbreviation CompileResult := (CompileResult.t OExpression Statement OType).

(** [PartialEvaluator]: the one method the handler calls. *)
Record PartialEvaluator := { evaluate : Expression -> Value }.

(** The functions [pipe.ts] imports, and [registerPipe] of
    [LocalModuleScopeRegistry] as a transition of the registry.
    Modelled from the spec: [getValidConstructorDependencies] returns an
    ordered sequence of dependency descriptors or fails with a diagnostic,
    and [generateSetClassMetadataCall] returns a statement or nothing. *)
Class Imports := {
  isAngularCore : Decorator -> bool;
  unwrapExpression : Expression -> Expression;
  isObjectLiteralExpression : Expression -> bool;
  reflectObjectLiteral : Expression -> gmap string Expression;
  getValidConstructorDependencies :
    ClassDeclaration -> ReflectionHost -> bool ->
    Diagnostic + list R3DependencyMetadata;
  generateSetClassMetadataCall :
    ClassDeclaration -> ReflectionHost -> bool -> option Statement;
  compilePipeFromMetadata : R3PipeMetadata -> R3PipeDef;
  registerPipe : ScopePipe -> Registry -> Registry
}.

Context `{Imports}.

(** The constructor's private fields.  [scopeRegistry] is a reference to a
    shared mutable object: its contents are in [World] below. *)
Record PipeDecoratorHandler := {
  reflector : ReflectionHost;
  evaluator : PartialEvaluator;
  isCore : bool
}.

(** *** Effects

    [analyze] throws, writes to the scope registry and calls services.
    A throw does not undo a write, so the state is returned next to the
    error as well as next to a result.  Besides the registry, the state
    keeps the calls made so far, oldest first. *)

Inductive Call :=
| CallEvaluate (expr : Expression)
| CallRegisterPipe (pipe : ScopePipe)
| CallGetValidConstructorDependencies (clazz : ClassDeclaration)
| CallGenerateSetClassMetadataCall (clazz : ClassDeclaration).

Record World := { scopeRegistry : Registry; calls : list Call }.

Definition Eff (A : Type) : Type := World -> World * (Diagnostic + A).

Definition ret {A : Type} (a : A) : Eff A := fun w => (w, inr a).

Definition throw {A : Type} (code : ErrorCode)
    (node : DiagnosticNode ClassDeclaration DecoratorNode Expression)
    (message : string) : Eff A :=
  fun w => (w, inl {| FatalDiagnosticError.code := code;
                      FatalDiagnosticError.node := node;
                      FatalDiagnosticError.message := message |}).

Definition bind {A B : Type} (m : Eff A) (k : A -> Eff B) : Eff B :=
  fun w => match m w with
           | (w', inr a) => k a w'
           | (w', inl e) => (w', inl e)
           end.

Local Notation "'do' x <- m ;; k" := (bind m (fun x => k))
  (at level 10, x name, m at level 99, k at level 200).

Definition logged (c : Call) (w : World) : World :=
  {| scopeRegistry := scopeRegistry w; calls := calls w ++ [c] |}.

(** [this.evaluator.evaluate(expr)] *)
Definition callEvaluate (this : PipeDecoratorHandler) (expr : Expression)
    : Eff Value :=
  fun w => (logged (CallEvaluate expr) w, inr (evaluate (evaluator this) expr)).

(** [this.scopeRegistry.registerPipe(pipe)] *)
Definition callRegisterPipe (pipe : ScopePipe) : Eff unit :=
  fun w => ({| scopeRegistry := registerPipe pipe (scopeRegistry w);
               calls := calls w ++ [CallRegisterPipe pipe] |}, inr tt).

(** The world after [pipeNameExpr] was evaluated and the pipe [pipeName]
    of [clazz] was registered, in that order. *)
Definition registered (clazz : ClassDeclaration) (pipeName : string)
    (pipeNameExpr : Expression) (w : World) : World :=
  let pipe := {| ScopePipe.ref := {| Reference.node := clazz |};
                 ScopePipe.name := pipeName |} in
  {| scopeRegistry := registerPipe pipe (scopeRegistry w);
     calls := calls w ++ [CallEvaluate pipeNameExpr; CallRegisterPipe pipe] |}.

(** A computation that leaves the registry as it found it and only adds
    to the calls. *)
Definition keepsRegistry {A : Type} (m : Eff A) : Prop :=
  forall w, scopeRegistry (m w).1 = scopeRegistry w
            /\ exists later, calls (m w).1 = calls w ++ later.

(** [getValidConstructorDependencies(clazz, this.reflector, this.isCore)] *)
Definition callGetValidConstructorDependencies (this : PipeDecoratorHandler)
    (clazz : ClassDeclaration) : Eff (list R3DependencyMetadata) :=
  fun w => (logged (CallGetValidConstructorDependencies clazz) w,
            getValidConstructorDependencies clazz (reflector this) (isCore this)).

(** [generateSetClassMetadataCall(clazz, this.reflector, this.isCore)] *)
Definition callGenerateSetClassMetadataCall (this : PipeDecoratorHandler)
    (clazz : ClassDeclaration) : Eff (option Statement) :=
  fun w => (logged (CallGenerateSetClassMetadataCall clazz) w,
            inr (generateSetClassMetadataCall clazz (reflector this) (isCore this))).

(** *** [detect] (lines 34-48) *)

Definition isPipeDecorator (this : PipeDecoratorHandler) (decorator : Decorator)
    : bool :=
  String.eqb (Decorator.name decorator) "Pipe"
  && (isCore this || isAngularCore decorator).

(** The same condition as a proposition: the decorator is called [Pipe],
    and the handler compiles the core package or the decorator comes from
    it. *)
Definition PipeOfCore (this : PipeDecoratorHandler) (decorator : Decorator)
    : Prop :=
  Decorator.name decorator = "Pipe"
  /\ (isCore this = true \/ isAngularCore decorator = true).

Definition detect {Declaration : Type} (this : PipeDecoratorHandler)
    (node : Declaration) (decorators : option (list Decorator))
    : option (DetectResult.t DecoratorNode Decorator) :=
  match decorators with
  | None => None
  | Some decorators =>
      match List.find (isPipeDecorator this) decorators with
      | Some decorator =>
          Some {| DetectResult.trigger := Decorator.node decorator;
                  DetectResult.metadata := decorator |}
      | None => None
      end
  end.

(** *** [analyze] (lines 50-107)

    [pipe.has(k)] followed by [pipe.get(k)!] is one lookup in the map.
    The test [decorator.args.length !== 1] is the match on the argument
    list: [args[0]] is read only from a list of one element. *)

(** Lines 85-94: [let pure = true; if (pipe.has('pure')) { ... }]. *)
Definition analyzePure (this : PipeDecoratorHandler)
    (pipe : gmap string Expression) : Eff bool :=
  match pipe !! "pure" with
  | Some expr =>
      do pureValue <- callEvaluate this expr ;;
      match pureValue with
      | VBoolean b => ret b
      | _ => throw VALUE_HAS_WRONG_TYPE (AtExpression expr)
               "@Pipe.pure must be a boolean"
      end
  | None => ret true
  end.

Definition analyze (this : PipeDecoratorHandler) (clazz : ClassDeclaration)
    (decorator : Decorator) : Eff (AnalysisOutput.t PipeHandlerData) :=
  match ts.name clazz with
  | None =>
      throw DECORATOR_ON_ANONYMOUS_CLASS (AtClass clazz) "@Pipes must have names"
  | Some clazz_name =>
      let name := ts.text clazz_name in
      let type := {| WrappedNodeExpr.node := clazz_name |} in
      match Decorator.args decorator with
      | None =>
          throw DECORATOR_NOT_CALLED (AtDecorator (Decorator.node decorator))
            "@Pipe must be called"
      | Some args =>
          match args with
          | [arg0] =>
              let meta := unwrapExpression arg0 in
              if negb (isObjectLiteralExpression meta) then
                throw DECORATOR_ARG_NOT_LITERAL (AtExpression meta)
                  "@Pipe must have a literal argument"
              else
                let pipe := reflectObjectLiteral meta in
                match pipe !! "name" with
                | None =>
                    throw PIPE_MISSING_NAME (AtExpression meta)
                      "@Pipe decorator is missing name field"
                | Some pipeNameExpr =>
                    do pipeName <- callEvaluate this pipeNameExpr ;;
                    match pipeName with
                    | VString pipeName =>
                        let ref := {| Reference.node := clazz |} in
                        do _ <- callRegisterPipe {| ScopePipe.ref := ref;
                                                 ScopePipe.name := pipeName |} ;;
                        do pure <- analyzePure this pipe ;;
                        do deps <- callGetValidConstructorDependencies this clazz ;;
                        do metadataStmt <- callGenerateSetClassMetadataCall this clazz ;;
                        ret {| AnalysisOutput.analysis :=
                          {| PipeHandlerData.meta :=
                               {| R3PipeMetadata.name := name;
                                  R3PipeMetadata.type := type;
                                  R3PipeMetadata.pipeName := pipeName;
                                  R3PipeMetadata.deps := deps;
                                  R3PipeMetadata.pure := pure |};
                             PipeHandlerData.metadataStmt := metadataStmt |} |}
                    | _ =>
                        throw VALUE_HAS_WRONG_TYPE (AtExpression pipeNameExpr)
                          "@Pipe.name must be a string"
                    end
                end
          | _ =>
              throw DECORATOR_ARITY_WRONG (AtDecorator (Decorator.node decorator))
                "@Pipe must have exactly one argument"
          end
      end
  end.

(** *** [compile] (lines 109-120)

    [statements.push] extends the array that [compilePipeFromMetadata]
    returned; the result holds that array. *)

Definition compile (this : PipeDecoratorHandler) (node : ClassDeclaration)
    (analysis : PipeHandlerData) : CompileResult :=
  let res := compilePipeFromMetadata (PipeHandlerData.meta analysis) in
  let statements :=
    match PipeHandlerData.metadataStmt analysis with
    | Some stmt => R3PipeDef.statements res ++ [stmt]
    | None => R3PipeDef.statements res
    end in
  {| CompileResult.name := "ngPipeDef";
     CompileResult.initializer := R3PipeDef.expression res;
     CompileResult.statements := statements;
     CompileResult.type := R3PipeDef.type res |}.

End PipeDecoratorHandler.

Arguments PartialEvaluator : clear implicits.
Arguments PipeDecoratorHandler : clear implicits.
Arguments Imports : clear implicits.
Arguments Call : clear implicits.
Arguments World : clear implicits.

(** ** One implementation of the collaborators

    A small expression syntax and simple services, on which the handler
    runs by computation.  The string of a decorator node is the module its
    identifier was imported from; the members of a class are the injection
    tokens of its constructor parameters. *)

Module Scenario.

Inductive Expression :=
| Identifier (text : string)
| StringLiteral (text : string)
| NumericLiteral (text : string)
| TrueKeyword
| FalseKeyword
| ParenthesizedExpression (expression : Expression)
| AsExpression (expression : Expression) (type : string)
| ObjectLiteralExpression (properties : Properties)
with Properties :=
| NoProperty
| PropertyAssignment (name : string) (initializer : Expression)
    (rest : Properties).

Abbreviation ClassDeclaration := (ts.ClassDeclaration string).
Abbreviation Decorator := (Decorator.t string Expression).
Abbreviation Value := (ResolvedValue string Properties string).
Abbreviation Registry := (list (ScopePipe.t ClassDeclaration)).

(** Modelled from the spec: [unwrapExpression] of [./util] removes "any
    trivial wrapping expression (e.g., parenthesization or as-style type
    assertions)". *)
Fixpoint unwrapExpression (node : Expression) : Expression :=
  match node with
  | ParenthesizedExpression expression => unwrapExpression expression
  | AsExpression expression _ => unwrapExpression expression
  | _ => node
  end.

Definition isObjectLiteralExpression (node : Expression) : bool :=
  match node with
  | ObjectLiteralExpression _ => true
  | _ => false
  end.

(** Modelled from the spec: [reflectObjectLiteral] of [../../reflection]
    gives "a mapping from field name to expression node".  A name written
    twice keeps its last initializer. *)
Fixpoint reflectProperties (properties : Properties)
    (map : gmap string Expression) : gmap string Expression :=
  match properties with
  | NoProperty => map
  | PropertyAssignment name initializer rest =>
      reflectProperties rest (<[name := initializer]> map)
  end.

Definition reflectObjectLiteral (node : Expression) : gmap string Expression :=
  match node with
  | ObjectLiteralExpression properties => reflectProperties properties ∅
  | _ => ∅
  end.

(** Modelled from the spec: the constant evaluator "attempts to reduce an
    expression to a compile-time value".  This one knows literals and
    looks through wrappers; an identifier has no known value. *)
Fixpoint evaluate (node : Expression) : Value :=
  match node with
  | Identifier _ => VUnknown
  | StringLiteral text => VString text
  | NumericLiteral text => VNumber text
  | TrueKeyword => VBoolean true
  | FalseKeyword => VBoolean false
  | ParenthesizedExpression expression => evaluate expression
  | AsExpression expression _ => evaluate expression
  | ObjectLiteralExpression properties => VObject properties
  end.

Definition isAngularCore (decorator : Decorator) : bool :=
  String.eqb (Decorator.node decorator) "@angular/core".

(** Modelled from the spec: the registry is "duplicate-tolerant"; this one
    keeps every registration, oldest first. *)
Definition registerPipe (pipe : ScopePipe.t ClassDeclaration)
    (registry : Registry) : Registry :=
  registry ++ [pipe].

Definition getValidConstructorDependencies (clazz : ClassDeclaration)
    (reflector : unit) (isCore : bool)
    : FatalDiagnosticError.t ClassDeclaration string Expression + list string :=
  inr (ts.members clazz).

Definition generateSetClassMetadataCall (clazz : ClassDeclaration)
    (reflector : unit) (isCore : bool) : option string :=
  match ts.name clazz with
  | Some id => Some ("setClassMetadata(" ++ ts.text id ++ ")")%string
  | None => None
  end.

Definition compilePipeFromMetadata (meta : R3PipeMetadata.t string)
    : R3PipeDef.t string string string :=
  {| R3PipeDef.expression :=
       ("definePipe(" ++ R3PipeMetadata.pipeName meta ++ ")")%string;
     R3PipeDef.type := ("PipeDef<" ++ R3PipeMetadata.name meta ++ ">")%string;
     R3PipeDef.statements := [] |}.

#[global] Instance imports
    : Imports Expression string string unit Registry string string string string :=
  Build_Imports isAngularCore unwrapExpression isObjectLiteralExpression
    reflectObjectLiteral getValidConstructorDependencies
    generateSetClassMetadataCall compilePipeFromMetadata registerPipe.

Definition handler (isCore : bool)
    : PipeDecoratorHandler Expression string Properties string unit :=
  {| reflector := tt;
     evaluator := Build_PartialEvaluator evaluate;
     isCore := isCore |}.

Definition world0 : World Expression string Registry := {| scopeRegistry := []; calls := [] |}.

(** [class UpperCasePipe {}] and an anonymous class. *)
Definition UpperCasePipe : ClassDeclaration :=
  {| ts.name := Some {| ts.text := "UpperCasePipe" |}; ts.members := [] |}.

Definition anonymous : ClassDeclaration :=
  {| ts.name := None; ts.members := [] |}.

(** What [analyze] registers for [UpperCasePipe] under the name
    [uppercase]. *)
Definition uppercase : ScopePipe.t ClassDeclaration :=
  {| ScopePipe.ref := {| Reference.node := UpperCasePipe |};
     ScopePipe.name := "uppercase" |}.

(** Another decorator of [@angular/core]. *)
Definition Injectable : Decorator :=
  {| Decorator.name := "Injectable";
     Decorator.node := "@angular/core";
     Decorator.args := Some [] |}.

(** A decorator called [Pipe] that comes from another package. *)
Definition foreignPipe : Decorator :=
  {| Decorator.name := "Pipe";
     Decorator.node := "./my-decorators";
     Decorator.args := Some [] |}.

(** [@Pipe(arg1, ..., argn)] and a bare [@Pipe], imported from
    [@angular/core]. *)
Definition Pipe (args : option (list Expression)) : Decorator :=
  {| Decorator.name := "Pipe";
     Decorator.node := "@angular/core";
     Decorator.args := args |}.

(** [{ name: 'uppercase' }] *)
Definition nameOnly : Expression :=
  ObjectLiteralExpression
    (PropertyAssignment "name" (StringLiteral "uppercase") NoProperty).

(** [{ name: 'uppercase', pure: false }] *)
Definition nameAndImpure : Expression :=
  ObjectLiteralExpression
    (PropertyAssignment "name" (StringLiteral "uppercase")
       (PropertyAssignment "pure" FalseKeyword NoProperty)).

(** [{ pure: true }] *)
Definition pureOnly : Expression :=
  ObjectLiteralExpression (PropertyAssignment "pure" TrueKeyword NoProperty).

(** [{ name: 'uppercase', pure: 'no' }] *)
Definition pureNotBoolean : Expression :=
  ObjectLiteralExpression
    (PropertyAssignment "name" (StringLiteral "uppercase")
       (PropertyAssignment "pure" (StringLiteral "no") NoProperty)).

(** [(config as any)] *)
Definition wrappedReference : Expression :=
  ParenthesizedExpression (AsExpression (Identifier "config") "any").

(** [{ name: 42 }] *)
Definition nameNotString : Expression :=
  ObjectLiteralExpression
    (PropertyAssignment "name" (NumericLiteral "42") NoProperty).

(** Modelled from the spec: the dependency resolver "may itself fail
    (propagated as a diagnostic, category DependencyResolutionFailed)".
    This one fails on a constructor parameter without a token, written
    as the empty string. *)
Definition strictConstructorDependencies (clazz : ClassDeclaration)
    (reflector : unit) (isCore : bool)
    : FatalDiagnosticError.t ClassDeclaration string Expression + list string :=
  if existsb (String.eqb "") (ts.members clazz) then
    inl {| FatalDiagnosticError.code := DEPENDENCY_RESOLUTION_FAILED;
           FatalDiagnosticError.node := AtClass clazz;
           FatalDiagnosticError.message := "No suitable injection token" |}
  else inr (ts.members clazz).

(** The collaborators of [imports], with the strict resolver. *)
Definition strictImports
    : Imports Expression string string unit Registry string string string string :=
  Build_Imports isAngularCore unwrapExpression isObjectLiteralExpression
    reflectObjectLiteral strictConstructorDependencies
    generateSetClassMetadataCall compilePipeFromMetadata registerPipe.

(** [class UpperCasePipe { constructor(x) {} }]: a parameter without a
    token. *)
Definition UpperCasePipeUntyped : ClassDeclaration :=
  {| ts.name := Some {| ts.text := "UpperCasePipe" |}; ts.members := [""] |}.

(** [class DatePipe { constructor(locale: Locale) {} }] *)
Definition DatePipe : ClassDeclaration :=
  {| ts.name := Some {| ts.text := "DatePipe" |}; ts.members := ["Locale"] |}.

(** [{ name: 'date', pure: true }] *)
Definition dateLiteral : Expression :=
  ObjectLiteralExpression
    (PropertyAssignment "name" (StringLiteral "date")
       (PropertyAssignment "pure" TrueKeyword NoProperty)).

(** What [analyze] returns for [@Pipe({name: 'date', pure: true})] on
    [DatePipe]. *)
Definition dateOutput
    : AnalysisOutput.t (PipeHandlerData.t string string) :=
  {| AnalysisOutput.analysis :=
       {| PipeHandlerData.meta :=
            {| R3PipeMetadata.name := "DatePipe";
               R3PipeMetadata.type :=
                 {| WrappedNodeExpr.node := {| ts.text := "DatePipe" |} |};
               R3PipeMetadata.pipeName := "date";
               R3PipeMetadata.deps := ["Locale"];
               R3PipeMetadata.pure := true |};
          PipeHandlerData.metadataStmt := Some "setClassMetadata(DatePipe)" |} |}.

End Scenario.

(** ** Properties of the handler *)

(** Every path through [analyze]: unfold the effects and split on each
    test the source makes. *)
Ltac analyze_paths :=
  unfold analyze, analyzePure, bind, callEvaluate, callRegisterPipe,
    callGetValidConstructorDependencies, callGenerateSetClassMetadataCall,
    throw, ret, logged;
  repeat (match goal with
          | |- context [match ?x with _ => _ end] =>
              lazymatch x with
              | context [match _ with _ => _ end] => fail
              | _ => destruct x eqn:?
              end
          end; cbn [fst snd]).

Section Properties.

Context {Expression DecoratorNode ClassElement : Type}.
Context {Number Object Ref : Type}.
Context {ReflectionHost Registry : Type}.
Context {OExpression OType Statement R3DependencyMetadata : Type}.
Context {imports : Imports Expression DecoratorNode ClassElement ReflectionHost
                     Registry OExpression OType Statement R3DependencyMetadata}.

Local Abbreviation ClassDeclaration := (ts.ClassDeclaration ClassElement).
Local Abbreviation Decorator := (Decorator.t DecoratorNode Expression).
Local Abbreviation Handler :=
  (PipeDecoratorHandler Expression Number Object Ref ReflectionHost).
Local Abbreviation World := (World Expression ClassElement Registry).
Local Abbreviation PipeHandlerData :=
  (PipeHandlerData.t R3DependencyMetadata Statement).

Implicit Types (this : Handler) (clazz node : ClassDeclaration).
Implicit Types (decorator : Decorator) (w : World).
Implicit Types (arg expr pipeNameExpr : Expression).

(** The diagnostic [new FatalDiagnosticError(code, node, message)]. *)
Local Abbreviation Fatal c n m :=
  {| FatalDiagnosticError.code := c;
     FatalDiagnosticError.node := n;
     FatalDiagnosticError.message := m |}.

(** The effect type and its operations, at the types of this section. *)
Local Abbreviation Eff :=
  (Eff (Expression := Expression) (DecoratorNode := DecoratorNode)
       (ClassElement := ClassElement) (Registry := Registry)).
Local Abbreviation ret :=
  (ret (Expression := Expression) (DecoratorNode := DecoratorNode)
       (ClassElement := ClassElement) (Registry := Registry)).
Local Abbreviation keepsRegistry :=
  (keepsRegistry (Expression := Expression) (DecoratorNode := DecoratorNode)
       (ClassElement := ClassElement) (Registry := Registry)).
Local Abbreviation analyzePure :=
  (analyzePure (DecoratorNode := DecoratorNode)).

(** *** The optional [pure] field *)

Lemma analyzePure_absent this (pipe : gmap string Expression) w :
  pipe !! "pure" = None ->
  analyzePure this pipe w = (w, inr true).
Proof.
  intros Hpure. unfold analyzePure. rewrite Hpure. reflexivity.
Qed.

Lemma analyzePure_boolean this (pipe : gmap string Expression) w expr b :
  pipe !! "pure" = Some expr ->
  evaluate (evaluator this) expr = VBoolean b ->
  analyzePure this pipe w = (logged (CallEvaluate expr) w, inr b).
Proof.
  intros Hpure Hb. unfold analyzePure, bind, callEvaluate.
  rewrite Hpure, Hb. reflexivity.
Qed.

Lemma analyzePure_not_boolean this (pipe : gmap string Expression) w expr :
  pipe !! "pure" = Some expr ->
  (forall b, evaluate (evaluator this) expr <> VBoolean b) ->
  analyzePure this pipe w =
    (logged (CallEvaluate expr) w,
     inl (Fatal VALUE_HAS_WRONG_TYPE (AtExpression expr)
            "@Pipe.pure must be a boolean")).
Proof.
  intros Hpure Hnb. unfold analyzePure, bind, callEvaluate. rewrite Hpure.
  destruct (evaluate (evaluator this) expr) as [s|b|n|o|r|] eqn:Hv;
    try reflexivity.
  exfalso. exact (Hnb b eq_refl).
Qed.

(** [analyzePure] leaves the registry alone and only adds to the calls. *)
Lemma analyzePure_frame this (pipe : gmap string Expression) w :
  scopeRegistry (analyzePure this pipe w).1 = scopeRegistry w
  /\ exists later, calls (analyzePure this pipe w).1 = calls w ++ later.
Proof.
  unfold analyzePure, bind, callEvaluate.
  destruct (pipe !! "pure") as [expr|].
  - destruct (evaluate (evaluator this) expr); simpl;
      (split; [reflexivity | eexists; reflexivity]).
  - simpl. split; [reflexivity | exists []; symmetry; apply app_nil_r].
Qed.

(** *** What the later steps do to the world *)

Lemma keepsRegistry_ret (A : Type) (a : A) :
  keepsRegistry (ret a).
Proof.
  intros w. simpl. split; [reflexivity | exists []; symmetry; apply app_nil_r].
Qed.

Lemma keepsRegistry_bind (A B : Type)
    (m : Eff A) (k : A -> Eff B) :
  keepsRegistry m ->
  (forall a, keepsRegistry (k a)) ->
  keepsRegistry (bind m k).
Proof.
  intros Hm Hk w. unfold bind.
  destruct (Hm w) as [Hreg [l1 Hcalls]].
  destruct (m w) as [w1 [e|a]]; simpl in *.
  - split; [exact Hreg | exists l1; exact Hcalls].
  - destruct (Hk a w1) as [Hreg' [l2 Hcalls']]. split.
    + rewrite Hreg'. exact Hreg.
    + exists (l1 ++ l2). rewrite Hcalls', Hcalls. symmetry. apply app_assoc.
Qed.

Lemma keepsRegistry_analyzePure this (pipe : gmap string Expression) :
  keepsRegistry (analyzePure this pipe).
Proof.
  intros w. apply analyzePure_frame.
Qed.

Lemma keepsRegistry_dependencies this clazz :
  keepsRegistry (callGetValidConstructorDependencies this clazz).
Proof.
  intros w. simpl. split; [reflexivity | eexists; reflexivity].
Qed.

Lemma keepsRegistry_metadata this clazz :
  keepsRegistry (callGenerateSetClassMetadataCall this clazz).
Proof.
  intros w. simpl. split; [reflexivity | eexists; reflexivity].
Qed.

(** *** From the class name to the registration

    Once the declaration is named, the decorator has one argument that
    unwraps to an object literal, and the literal's [name] evaluates to a
    string, [analyze] has evaluated that field, has registered the pipe,
    and goes on with [pure], the dependencies and the metadata call. *)

Lemma analyze_after_registration this clazz decorator w id arg
    pipeNameExpr pipeName :
  ts.name clazz = Some id ->
  Decorator.args decorator = Some [arg] ->
  isObjectLiteralExpression (unwrapExpression arg) = true ->
  reflectObjectLiteral (unwrapExpression arg) !! "name" = Some pipeNameExpr ->
  evaluate (evaluator this) pipeNameExpr = VString pipeName ->
  analyze this clazz decorator w =
    bind (analyzePure this (reflectObjectLiteral (unwrapExpression arg)))
      (fun pure =>
       bind (callGetValidConstructorDependencies this clazz) (fun deps =>
       bind (callGenerateSetClassMetadataCall this clazz) (fun metadataStmt =>
       ret {| AnalysisOutput.analysis :=
         {| PipeHandlerData.meta :=
              {| R3PipeMetadata.name := ts.text id;
                 R3PipeMetadata.type := {| WrappedNodeExpr.node := id |};
                 R3PipeMetadata.pipeName := pipeName;
                 R3PipeMetadata.deps := deps;
                 R3PipeMetadata.pure := pure |};
            PipeHandlerData.metadataStmt := metadataStmt |} |})))
      (registered clazz pipeName pipeNameExpr w).
Proof.
  intros Hname Hargs Hlit Hfield Hstring. unfold analyze.
  rewrite Hname, Hargs, Hlit. simpl. rewrite Hfield.
  unfold bind at 1. unfold callEvaluate at 1. rewrite Hstring.
  unfold bind at 1. unfold callRegisterPipe at 1. unfold registered, logged.
  simpl. rewrite <- app_assoc. reflexivity.
Qed.

(** *** The validation steps of [analyze] *)

(** C3. A declaration without a name is rejected with
    [DECORATOR_ON_ANONYMOUS_CLASS] (AnonymousDeclaration), whatever its
    decorator looks like, and the world [analyze] leaves is the one it
    found: the registry is not written and no service was called. *)
Theorem analyze_anonymous_class this clazz decorator w :
  ts.name clazz = None ->
  analyze this clazz decorator w =
    (w, inl (Fatal DECORATOR_ON_ANONYMOUS_CLASS (AtClass clazz)
               "@Pipes must have names")).
Proof.
  intros Hname. unfold analyze. rewrite Hname. reflexivity.
Qed.

(** C4. On a named declaration, a decorator that was not called is
    rejected with [DECORATOR_NOT_CALLED] (AnnotationNotInvoked) and the
    world is untouched, so no expression has been evaluated; a decorator
    called with zero or with more than one argument is rejected with
    [DECORATOR_ARITY_WRONG] (AnnotationArityWrong). *)
Theorem analyze_not_called_or_arity_wrong this clazz decorator w id :
  ts.name clazz = Some id ->
  (Decorator.args decorator = None ->
   analyze this clazz decorator w =
     (w, inl (Fatal DECORATOR_NOT_CALLED
                (AtDecorator (Decorator.node decorator))
                "@Pipe must be called")))
  /\
  (forall args,
   Decorator.args decorator = Some args ->
   length args <> 1 ->
   analyze this clazz decorator w =
     (w, inl (Fatal DECORATOR_ARITY_WRONG
                (AtDecorator (Decorator.node decorator))
                "@Pipe must have exactly one argument"))).
Proof.
  intros Hname. split.
  - intros Hargs. unfold analyze. rewrite Hname, Hargs. reflexivity.
  - intros args Hargs Hlen. unfold analyze. rewrite Hname, Hargs.
    destruct args as [|arg0 [|arg1 rest]]; simpl in Hlen;
      [reflexivity | congruence | reflexivity].
Qed.

(** C5. On a named declaration whose decorator has one argument: if the
    unwrapped argument is not an object literal, [analyze] fails with
    [DECORATOR_ARG_NOT_LITERAL] (AnnotationArgumentNotLiteral); if it is
    one but has no [name] field, [analyze] fails with [PIPE_MISSING_NAME]
    (RequiredFieldMissing).  In both cases the world is untouched: the
    registry is not written. *)
Theorem analyze_not_literal_or_name_missing this clazz decorator w id arg :
  ts.name clazz = Some id ->
  Decorator.args decorator = Some [arg] ->
  (isObjectLiteralExpression (unwrapExpression arg) = false ->
   analyze this clazz decorator w =
     (w, inl (Fatal DECORATOR_ARG_NOT_LITERAL
                (AtExpression (unwrapExpression arg))
                "@Pipe must have a literal argument")))
  /\
  (isObjectLiteralExpression (unwrapExpression arg) = true ->
   reflectObjectLiteral (unwrapExpression arg) !! "name" = None ->
   analyze this clazz decorator w =
     (w, inl (Fatal PIPE_MISSING_NAME
                (AtExpression (unwrapExpression arg))
                "@Pipe decorator is missing name field"))).
Proof.
  intros Hname Hargs. split.
  - intros Hlit. unfold analyze. rewrite Hname, Hargs, Hlit. reflexivity.
  - intros Hlit Hfield. unfold analyze.
    rewrite Hname, Hargs, Hlit. simpl. rewrite Hfield. reflexivity.
Qed.

(** C6. On a named declaration whose decorator has one argument that
    unwraps to an object literal with a [name] field: if that field does
    not evaluate to a string, [analyze] fails with [VALUE_HAS_WRONG_TYPE]
    (FieldWrongType) right after evaluating it, the registry unwritten;
    if a [pure] field is present and does not evaluate to a boolean,
    [analyze] fails with [VALUE_HAS_WRONG_TYPE] as well. *)
Theorem analyze_value_has_wrong_type this clazz decorator w id arg
    pipeNameExpr :
  ts.name clazz = Some id ->
  Decorator.args decorator = Some [arg] ->
  isObjectLiteralExpression (unwrapExpression arg) = true ->
  reflectObjectLiteral (unwrapExpression arg) !! "name" = Some pipeNameExpr ->
  ((forall s, evaluate (evaluator this) pipeNameExpr <> VString s) ->
   analyze this clazz decorator w =
     (logged (CallEvaluate pipeNameExpr) w,
      inl (Fatal VALUE_HAS_WRONG_TYPE (AtExpression pipeNameExpr)
             "@Pipe.name must be a string")))
  /\
  (forall expr,
   reflectObjectLiteral (unwrapExpression arg) !! "pure" = Some expr ->
   (forall b, evaluate (evaluator this) expr <> VBoolean b) ->
   exists e,
     (analyze this clazz decorator w).2 = inl e
     /\ FatalDiagnosticError.code e = VALUE_HAS_WRONG_TYPE).
Proof.
  intros Hname Hargs Hlit Hfield.
  assert (Hwrong : (forall s, evaluate (evaluator this) pipeNameExpr <> VString s) ->
    analyze this clazz decorator w =
      (logged (CallEvaluate pipeNameExpr) w,
       inl (Fatal VALUE_HAS_WRONG_TYPE (AtExpression pipeNameExpr)
              "@Pipe.name must be a string"))).
  { intros Hns. unfold analyze. rewrite Hname, Hargs, Hlit. simpl.
    rewrite Hfield. unfold bind at 1. unfold callEvaluate at 1.
    destruct (evaluate (evaluator this) pipeNameExpr) as [s|b|n|o|r|] eqn:Hv;
      try reflexivity.
    exfalso. exact (Hns s eq_refl). }
  split; [exact Hwrong|].
  intros expr Hpure Hnb.
  destruct (evaluate (evaluator this) pipeNameExpr) as [s|b|n|o|r|] eqn:Hv;
    [|rewrite Hwrong by (intros s; discriminate);
      eexists; split; reflexivity ..].
  rewrite (analyze_after_registration this clazz decorator w id arg
             pipeNameExpr s Hname Hargs Hlit Hfield Hv).
  unfold bind at 1. rewrite (analyzePure_not_boolean _ _ _ expr Hpure Hnb).
  eexists. split; reflexivity.
Qed.

(** C2. Once the declaration is named, the single argument unwraps to an
    object literal and its [name] field evaluates to a string, the pipe is
    registered as the step right after that evaluation, whatever comes of
    [pure], the dependencies and the metadata call: in the world [analyze]
    leaves, the registry is the one it found with the pair registered,
    and the calls are those it found, then the evaluation of [name], then
    the registration, then everything else.  In particular, when [pure]
    is present and does not evaluate to a boolean, [analyze] fails with
    [VALUE_HAS_WRONG_TYPE] (FieldWrongType) and that registered world is
    what it leaves, with only the evaluation of [pure] added to the
    calls. *)
Theorem analyze_registers_before_optional_fields this clazz decorator w id
    arg pipeNameExpr pipeName :
  ts.name clazz = Some id ->
  Decorator.args decorator = Some [arg] ->
  isObjectLiteralExpression (unwrapExpression arg) = true ->
  reflectObjectLiteral (unwrapExpression arg) !! "name" = Some pipeNameExpr ->
  evaluate (evaluator this) pipeNameExpr = VString pipeName ->
  let pipe := {| ScopePipe.ref := {| Reference.node := clazz |};
                 ScopePipe.name := pipeName |} in
  (scopeRegistry (analyze this clazz decorator w).1
     = registerPipe pipe (scopeRegistry w)
   /\ exists later,
        calls (analyze this clazz decorator w).1
          = calls w ++ CallEvaluate pipeNameExpr :: CallRegisterPipe pipe :: later)
  /\
  (forall expr,
   reflectObjectLiteral (unwrapExpression arg) !! "pure" = Some expr ->
   (forall b, evaluate (evaluator this) expr <> VBoolean b) ->
   analyze this clazz decorator w =
     ({| scopeRegistry := registerPipe pipe (scopeRegistry w);
         calls := calls w ++ [CallEvaluate pipeNameExpr;
                              CallRegisterPipe pipe;
                              CallEvaluate expr] |},
      inl (Fatal VALUE_HAS_WRONG_TYPE (AtExpression expr)
             "@Pipe.pure must be a boolean"))).
Proof.
  intros Hname Hargs Hlit Hfield Hstring pipe.
  rewrite (analyze_after_registration this clazz decorator w id arg
             pipeNameExpr pipeName Hname Hargs Hlit Hfield Hstring).
  split.
  - match goal with |- context [bind ?m ?k] =>
      assert (Hkeeps : keepsRegistry (bind m k))
    end.
    { apply keepsRegistry_bind; [apply keepsRegistry_analyzePure|].
      intros pure.
      apply keepsRegistry_bind; [apply keepsRegistry_dependencies|].
      intros deps.
      apply keepsRegistry_bind; [apply keepsRegistry_metadata|].
      intros metadataStmt. apply keepsRegistry_ret. }
    destruct (Hkeeps (registered clazz pipeName pipeNameExpr w))
      as [Hreg [later Hcalls]].
    split; [exact Hreg|].
    exists later. rewrite Hcalls. unfold registered. simpl.
    rewrite <- app_assoc. reflexivity.
  - intros expr Hpure Hnb. unfold bind at 1.
    rewrite (analyzePure_not_boolean _ _ _ expr Hpure Hnb).
    unfold logged, registered. simpl. rewrite <- app_assoc. reflexivity.
Qed.

(** *** Successful analyses *)

(** When validation passes and the dependencies resolve, [analyze]
    returns the record built from the class name, the evaluated [name],
    the dependencies, the flag [analyzePure] returned and the metadata
    statement. *)
Lemma analyze_succeeds this clazz decorator w id arg pipeNameExpr pipeName
    deps w' pure :
  ts.name clazz = Some id ->
  Decorator.args decorator = Some [arg] ->
  isObjectLiteralExpression (unwrapExpression arg) = true ->
  reflectObjectLiteral (unwrapExpression arg) !! "name" = Some pipeNameExpr ->
  evaluate (evaluator this) pipeNameExpr = VString pipeName ->
  analyzePure this (reflectObjectLiteral (unwrapExpression arg))
    (registered clazz pipeName pipeNameExpr w) = (w', inr pure) ->
  getValidConstructorDependencies clazz (reflector this) (isCore this)
    = inr deps ->
  (analyze this clazz decorator w).2 =
    inr {| AnalysisOutput.analysis :=
      {| PipeHandlerData.meta :=
           {| R3PipeMetadata.name := ts.text id;
              R3PipeMetadata.type := {| WrappedNodeExpr.node := id |};
              R3PipeMetadata.pipeName := pipeName;
              R3PipeMetadata.deps := deps;
              R3PipeMetadata.pure := pure |};
         PipeHandlerData.metadataStmt :=
           generateSetClassMetadataCall clazz (reflector this) (isCore this)
      |} |}.
Proof.
  intros Hname Hargs Hlit Hfield Hstring Hpure Hdeps.
  rewrite (analyze_after_registration this clazz decorator w id arg
             pipeNameExpr pipeName Hname Hargs Hlit Hfield Hstring).
  unfold bind at 1. rewrite Hpure.
  unfold bind, callGetValidConstructorDependencies,
    callGenerateSetClassMetadataCall.
  rewrite Hdeps. reflexivity.
Qed.

(** C7. In the record of a successful analysis the purity flag is [true]
    when the literal has no [pure] field, and is the boolean the field
    evaluates to when it has one. *)
Theorem analyze_pure_flag this clazz decorator w id arg pipeNameExpr pipeName
    deps :
  ts.name clazz = Some id ->
  Decorator.args decorator = Some [arg] ->
  isObjectLiteralExpression (unwrapExpression arg) = true ->
  reflectObjectLiteral (unwrapExpression arg) !! "name" = Some pipeNameExpr ->
  evaluate (evaluator this) pipeNameExpr = VString pipeName ->
  getValidConstructorDependencies clazz (reflector this) (isCore this)
    = inr deps ->
  (reflectObjectLiteral (unwrapExpression arg) !! "pure" = None ->
   exists output,
     (analyze this clazz decorator w).2 = inr output
     /\ R3PipeMetadata.pure
          (PipeHandlerData.meta (AnalysisOutput.analysis output)) = true)
  /\
  (forall expr b,
   reflectObjectLiteral (unwrapExpression arg) !! "pure" = Some expr ->
   evaluate (evaluator this) expr = VBoolean b ->
   exists output,
     (analyze this clazz decorator w).2 = inr output
     /\ R3PipeMetadata.pure
          (PipeHandlerData.meta (AnalysisOutput.analysis output)) = b).
Proof.
  intros Hname Hargs Hlit Hfield Hstring Hdeps. split.
  - intros Habsent. eexists. split.
    + eapply analyze_succeeds; eauto using analyzePure_absent.
    + reflexivity.
  - intros expr b Hpure Hb. eexists. split.
    + eapply analyze_succeeds; eauto using analyzePure_boolean.
    + reflexivity.
Qed.

(** C1. The class [UpperCasePipe] with [@Pipe({name: 'uppercase'})]: the
    single argument unwraps to an object literal whose [name] evaluates
    to ['uppercase'], there is no [pure] field and no dependency.  Then
    [analyze] succeeds with name [UpperCasePipe], pipe name [uppercase],
    [pure] true and no dependencies, and [compile] turns that record into
    an artifact called [ngPipeDef] whose initializer is the expression
    the pipe compiler produced (the field has no null value). *)
Theorem analyze_compile_UpperCasePipe this clazz decorator w id arg
    pipeNameExpr :
  ts.name clazz = Some id ->
  ts.text id = "UpperCasePipe" ->
  Decorator.args decorator = Some [arg] ->
  isObjectLiteralExpression (unwrapExpression arg) = true ->
  reflectObjectLiteral (unwrapExpression arg) !! "name" = Some pipeNameExpr ->
  evaluate (evaluator this) pipeNameExpr = VString "uppercase" ->
  reflectObjectLiteral (unwrapExpression arg) !! "pure" = None ->
  getValidConstructorDependencies clazz (reflector this) (isCore this)
    = inr [] ->
  exists output,
    (analyze this clazz decorator w).2 = inr output
    /\ let meta := PipeHandlerData.meta (AnalysisOutput.analysis output) in
       let artifact := compile this clazz (AnalysisOutput.analysis output) in
       R3PipeMetadata.name meta = "UpperCasePipe"
       /\ R3PipeMetadata.pipeName meta = "uppercase"
       /\ R3PipeMetadata.pure meta = true
       /\ R3PipeMetadata.deps meta = []
       /\ CompileResult.name artifact = "ngPipeDef"
       /\ CompileResult.initializer artifact
            = R3PipeDef.expression (compilePipeFromMetadata meta).
Proof.
  intros Hname Htext Hargs Hlit Hfield Hstring Habsent Hdeps.
  eexists. split.
  - eapply analyze_succeeds; eauto using analyzePure_absent.
  - simpl. rewrite Htext. repeat split.
Qed.

(** *** [compile] *)

(** C8. [compile] is a function of the record with no error result.
    Its artifact is called [ngPipeDef], takes initializer and type from
    the pipe compiler, and its statements are the pipe compiler's
    statements, in their order, followed by the metadata statement when
    the record has one and by nothing when it has none. *)
Theorem compile_appends_metadata_statement this node
    (meta : R3PipeMetadata.t R3DependencyMetadata) :
  let res := compilePipeFromMetadata meta in
  (forall stmt : Statement,
     CompileResult.statements
       (compile this node {| PipeHandlerData.meta := meta;
                             PipeHandlerData.metadataStmt := Some stmt |})
     = R3PipeDef.statements res ++ [stmt])
  /\ CompileResult.statements
       (compile this node {| PipeHandlerData.meta := meta;
                             PipeHandlerData.metadataStmt := None |})
     = R3PipeDef.statements res
  /\ (forall metadataStmt : option Statement,
        let artifact :=
          compile this node {| PipeHandlerData.meta := meta;
                               PipeHandlerData.metadataStmt := metadataStmt |} in
        CompileResult.name artifact = "ngPipeDef"
        /\ CompileResult.initializer artifact = R3PipeDef.expression res
        /\ CompileResult.type artifact = R3PipeDef.type res
        /\ R3PipeDef.statements res `prefix_of` CompileResult.statements artifact).
Proof.
  intros res. split; [|split].
  - intros stmt. reflexivity.
  - reflexivity.
  - intros [stmt|]; simpl; repeat split.
    + apply prefix_app_r. reflexivity.
    + reflexivity.
Qed.

(** C10. [compile] does not look at the class declaration it is given:
    two declarations with the same record get the same artifact. *)
Theorem compile_ignores_node this (n1 n2 : ClassDeclaration)
    (analysis : PipeHandlerData) :
  compile this n1 analysis = compile this n2 analysis.
Proof.
  reflexivity.
Qed.

(** *** [detect] *)

Lemma isPipeDecorator_true this decorator :
  isPipeDecorator this decorator = true <-> PipeOfCore this decorator.
Proof.
  unfold isPipeDecorator, PipeOfCore.
  rewrite andb_true_iff, orb_true_iff, String.eqb_eq. reflexivity.
Qed.

Lemma isPipeDecorator_false this decorator :
  isPipeDecorator this decorator = false <-> ~ PipeOfCore this decorator.
Proof.
  rewrite <- isPipeDecorator_true.
  destruct (isPipeDecorator this decorator); split; congruence.
Qed.

(** [Array.prototype.find] returns the first element that satisfies the
    predicate. *)
Lemma find_Some_first (A : Type) (f : A -> bool) (l : list A) (x : A) :
  List.find f l = Some x <->
  exists before after,
    l = before ++ x :: after
    /\ Forall (fun y => f y = false) before
    /\ f x = true.
Proof.
  induction l as [|a l IH]; simpl.
  - split; [discriminate|].
    intros (before & after & Hl & _). destruct before; discriminate.
  - destruct (f a) eqn:Hfa.
    + split.
      * intros [= ->]. exists [], l. repeat split; [constructor | exact Hfa].
      * intros (before & after & Hl & Hbefore & Hfx).
        destruct before as [|b before]; simpl in Hl.
        -- congruence.
        -- injection Hl as <- _. inversion Hbefore; congruence.
    + rewrite IH. split.
      * intros (before & after & -> & Hbefore & Hfx).
        exists (a :: before), after. repeat split; [constructor; assumption | exact Hfx].
      * intros (before & after & Hl & Hbefore & Hfx).
        destruct before as [|b before]; simpl in Hl.
        -- injection Hl as -> _. congruence.
        -- injection Hl as <- ->. exists before, after.
           inversion Hbefore; subst. repeat split; assumption.
Qed.

Lemma find_None_all (A : Type) (f : A -> bool) (l : list A) :
  List.find f l = None <-> Forall (fun y => f y = false) l.
Proof.
  induction l as [|a l IH]; simpl.
  - split; [constructor | reflexivity].
  - destruct (f a) eqn:Hfa.
    + split; [discriminate|]. inversion 1; congruence.
    + rewrite IH. split; [constructor; assumption | inversion 1; assumption].
Qed.

(** C9. Without a decorator list [detect] finds nothing.  With one, it
    returns a match exactly for the first decorator of the list that is
    called [Pipe] and passes the origin condition, with that decorator's
    node as trigger and the decorator as metadata; it finds nothing
    exactly when no decorator of the list is such.  [detect] is a
    function into an optional result: it has no error and no state. *)
Theorem detect_selects_first_Pipe (Declaration : Type) this
    (node : Declaration) :
  detect this node None = None
  /\ (forall (decorators : list Decorator) result,
        detect this node (Some decorators) = Some result <->
        exists before decorator after,
          decorators = before ++ decorator :: after
          /\ Forall (fun d => ~ PipeOfCore this d) before
          /\ PipeOfCore this decorator
          /\ result = {| DetectResult.trigger := Decorator.node decorator;
                         DetectResult.metadata := decorator |})
  /\ (forall decorators : list Decorator,
        detect this node (Some decorators) = None <->
        Forall (fun d => ~ PipeOfCore this d) decorators).
Proof.
  split; [reflexivity|]. split.
  - intros decorators result. unfold detect. split.
    + destruct (List.find (isPipeDecorator this) decorators) as [d|] eqn:Hfind;
        [|discriminate].
      intros [= <-]. apply find_Some_first in Hfind.
      destruct Hfind as (before & after & Hl & Hbefore & Hd).
      exists before, d, after. repeat split; try assumption.
      * eapply Forall_impl; [exact Hbefore|].
        intros d' Hd'. apply isPipeDecorator_false. exact Hd'.
      * apply isPipeDecorator_true in Hd. apply Hd.
      * apply isPipeDecorator_true in Hd. apply Hd.
    + intros (before & d & after & Hl & Hbefore & Hd & ->).
      assert (Hfind : List.find (isPipeDecorator this) decorators = Some d).
      { apply find_Some_first. exists before, after. repeat split.
        - exact Hl.
        - eapply Forall_impl; [exact Hbefore|].
          intros d' Hd'. apply isPipeDecorator_false. exact Hd'.
        - apply isPipeDecorator_true. exact Hd. }
      rewrite Hfind. reflexivity.
  - intros decorators. unfold detect.
    destruct (List.find (isPipeDecorator this) decorators) as [d|] eqn:Hfind.
    + split; [discriminate|]. intros Hall. exfalso.
      apply find_Some_first in Hfind.
      destruct Hfind as (before & after & Hl & _ & Hd).
      rewrite Forall_forall in Hall.
      apply (Hall d).
      * rewrite Hl. apply list_elem_of_In, in_elt.
      * apply isPipeDecorator_true. exact Hd.
    + split; [|reflexivity]. intros _.
      apply find_None_all in Hfind.
      eapply Forall_impl; [exact Hfind|].
      intros d' Hd'. apply isPipeDecorator_false. exact Hd'.
Qed.

(** ** Further properties of [analyze]

    Read off the paths of the method; none of them needs more than the
    tests the source makes. *)

(** X1. [analyze] writes to the registry and never reads it: started in
    two different worlds, it returns the same diagnostic or the same
    record. *)
Theorem analyze_result_ignores_world this clazz decorator w1 w2 :
  (analyze this clazz decorator w1).2 = (analyze this clazz decorator w2).2.
Proof.
  analyze_paths; reflexivity.
Qed.

(** X3. A record comes out of [analyze] only when every validation step
    passed, and each of its fields is what that step produced: the class
    is named and the record carries its text and its identifier; the
    decorator has one argument, which unwraps to an object literal with a
    [name] that evaluates to the record's pipe name; [pure] is absent and
    the flag is [true], or evaluates to the flag; the dependencies are
    the resolver's and the statement is the metadata generator's. *)
Theorem analyze_success_validated this clazz decorator w output :
  (analyze this clazz decorator w).2 = inr output ->
  exists id arg pipeNameExpr,
    let meta := PipeHandlerData.meta (AnalysisOutput.analysis output) in
    let pipe := reflectObjectLiteral (unwrapExpression arg) in
    ts.name clazz = Some id
    /\ Decorator.args decorator = Some [arg]
    /\ isObjectLiteralExpression (unwrapExpression arg) = true
    /\ pipe !! "name" = Some pipeNameExpr
    /\ evaluate (evaluator this) pipeNameExpr
         = VString (R3PipeMetadata.pipeName meta)
    /\ R3PipeMetadata.name meta = ts.text id
    /\ R3PipeMetadata.type meta = {| WrappedNodeExpr.node := id |}
    /\ match pipe !! "pure" with
       | Some expr =>
           evaluate (evaluator this) expr = VBoolean (R3PipeMetadata.pure meta)
       | None => R3PipeMetadata.pure meta = true
       end
    /\ getValidConstructorDependencies clazz (reflector this) (isCore this)
         = inr (R3PipeMetadata.deps meta)
    /\ PipeHandlerData.metadataStmt (AnalysisOutput.analysis output)
         = generateSetClassMetadataCall clazz (reflector this) (isCore this).
Proof.
  revert output. analyze_paths; intros output Hrun; try discriminate Hrun;
    injection Hrun as <-; simpl.
  all: apply negb_false_iff in Heqb.
  all: do 3 eexists; repeat split; try eassumption; try reflexivity.
  all: match goal with
       | Hp : ?m !! "pure" = _ |- context [?m !! "pure"] => rewrite Hp
       end; try assumption; reflexivity.
Qed.

(** X4. A successful analysis has registered the pipe it returns: the
    registry it leaves is the one it found with the class registered
    under the record's pipe name. *)
Theorem analyze_success_registers this clazz decorator w output :
  (analyze this clazz decorator w).2 = inr output ->
  scopeRegistry (analyze this clazz decorator w).1
  = registerPipe
      {| ScopePipe.ref := {| Reference.node := clazz |};
         ScopePipe.name :=
           R3PipeMetadata.pipeName
             (PipeHandlerData.meta (AnalysisOutput.analysis output)) |}
      (scopeRegistry w).
Proof.
  revert output. analyze_paths; intros output Hrun; try discriminate Hrun;
    injection Hrun as <-; reflexivity.
Qed.

(** X5. The diagnostics of [analyze] are a closed set: a failure carries
    one of the six codes the method throws itself, or it is the
    diagnostic the dependency resolver failed with, passed on as it
    is. *)
Theorem analyze_failure_codes this clazz decorator w e :
  (analyze this clazz decorator w).2 = inl e ->
  In (FatalDiagnosticError.code e)
    [DECORATOR_ON_ANONYMOUS_CLASS; DECORATOR_NOT_CALLED;
     DECORATOR_ARITY_WRONG; DECORATOR_ARG_NOT_LITERAL;
     PIPE_MISSING_NAME; VALUE_HAS_WRONG_TYPE]
  \/ getValidConstructorDependencies clazz (reflector this) (isCore this)
     = inl e.
Proof.
  revert e. analyze_paths; intros e' Hrun; try discriminate Hrun;
    injection Hrun as <-; simpl; auto 10.
Qed.

(** X6. When validation passes ([pure] is absent or evaluates to a
    boolean) but the dependency resolver fails, [analyze] fails with the
    resolver's diagnostic.  The registration made before is kept, and the
    metadata generator is not called: the resolver's call is the last
    one. *)
Theorem analyze_dependency_failure this clazz decorator w id arg
    pipeNameExpr pipeName e :
  let pipe := reflectObjectLiteral (unwrapExpression arg) in
  let scopePipe := {| ScopePipe.ref := {| Reference.node := clazz |};
                      ScopePipe.name := pipeName |} in
  ts.name clazz = Some id ->
  Decorator.args decorator = Some [arg] ->
  isObjectLiteralExpression (unwrapExpression arg) = true ->
  pipe !! "name" = Some pipeNameExpr ->
  evaluate (evaluator this) pipeNameExpr = VString pipeName ->
  match pipe !! "pure" with
  | Some expr => exists b, evaluate (evaluator this) expr = VBoolean b
  | None => True
  end ->
  getValidConstructorDependencies clazz (reflector this) (isCore this)
    = inl e ->
  analyze this clazz decorator w
  = ({| scopeRegistry := registerPipe scopePipe (scopeRegistry w);
        calls := calls w
                 ++ [CallEvaluate pipeNameExpr; CallRegisterPipe scopePipe]
                 ++ match pipe !! "pure" with
                    | Some expr => [CallEvaluate expr]
                    | None => []
                    end
                 ++ [CallGetValidConstructorDependencies clazz] |},
     inl e).
Proof.
  intros pipe scopePipe Hname Hargs Hlit Hfield Hstring Hpure Hdeps.
  rewrite (analyze_after_registration this clazz decorator w id arg
             pipeNameExpr pipeName Hname Hargs Hlit Hfield Hstring).
  unfold bind at 1. fold pipe.
  destruct (pipe !! "pure") as [expr|] eqn:Hfieldp.
  - destruct Hpure as [b Hb].
    rewrite (analyzePure_boolean this pipe _ expr b Hfieldp Hb).
    unfold bind, callGetValidConstructorDependencies. rewrite Hdeps.
    unfold logged, registered. simpl.
    repeat rewrite <- app_assoc. reflexivity.
  - rewrite (analyzePure_absent this pipe _ Hfieldp).
    unfold bind, callGetValidConstructorDependencies. rewrite Hdeps.
    unfold logged, registered. simpl.
    repeat rewrite <- app_assoc. reflexivity.
Qed.

(** X7. [analyze] registers at most once, and only the class it was
    given: the registry it leaves is the one it found, or that one with
    the class registered under some name. *)
Theorem analyze_registers_at_most_once this clazz decorator w :
  scopeRegistry (analyze this clazz decorator w).1 = scopeRegistry w
  \/ exists pipeName,
       scopeRegistry (analyze this clazz decorator w).1
       = registerPipe
           {| ScopePipe.ref := {| Reference.node := clazz |};
              ScopePipe.name := pipeName |}
           (scopeRegistry w).
Proof.
  analyze_paths; first [left; reflexivity | right; eexists; reflexivity].
Qed.

(** X8. The services a successful analysis has called, in order: the
    evaluator on [name], the registry, the evaluator on [pure] when the
    literal has it, the dependency resolver, the metadata generator. *)
Theorem analyze_success_calls this clazz decorator w output :
  (analyze this clazz decorator w).2 = inr output ->
  exists arg pipeNameExpr,
    let pipe := reflectObjectLiteral (unwrapExpression arg) in
    Decorator.args decorator = Some [arg]
    /\ pipe !! "name" = Some pipeNameExpr
    /\ calls (analyze this clazz decorator w).1
       = calls w
         ++ [CallEvaluate pipeNameExpr;
             CallRegisterPipe
               {| ScopePipe.ref := {| Reference.node := clazz |};
                  ScopePipe.name :=
                    R3PipeMetadata.pipeName
                      (PipeHandlerData.meta (AnalysisOutput.analysis output)) |}]
         ++ match pipe !! "pure" with
            | Some expr => [CallEvaluate expr]
            | None => []
            end
         ++ [CallGetValidConstructorDependencies clazz;
             CallGenerateSetClassMetadataCall clazz].
Proof.
  revert output. analyze_paths; intros output Hrun; try discriminate Hrun;
    injection Hrun as <-; simpl.
  all: do 2 eexists; repeat split; try eassumption.
  all: match goal with
       | Hp : ?m !! "pure" = _ |- context [?m !! "pure"] => rewrite Hp
       end.
  all: repeat rewrite <- app_assoc; reflexivity.
Qed.

(** X9. [analyze] only adds to the calls, and the only expressions it
    hands to the evaluator are the [name] and the [pure] field of the
    literal its single argument unwraps to. *)
Theorem analyze_evaluates_only_fields this clazz decorator w :
  exists later,
    calls (analyze this clazz decorator w).1 = calls w ++ later
    /\ forall expr,
         In (CallEvaluate expr) later ->
         exists arg,
           Decorator.args decorator = Some [arg]
           /\ (reflectObjectLiteral (unwrapExpression arg) !! "name" = Some expr
               \/ reflectObjectLiteral (unwrapExpression arg) !! "pure"
                  = Some expr).
Proof.
  analyze_paths.
  all: simpl; repeat rewrite <- app_assoc.
  all: first [ eexists; split; [reflexivity|]
             | exists []; split; [symmetry; apply app_nil_r|] ].
  all: simpl; intros expr Hin.
  all: repeat match goal with
         | Hor : _ \/ _ |- _ => destruct Hor as [Hor | Hor]
         end;
       try contradiction; try discriminate.
  all: injection Hin as <-; eexists; split; [reflexivity|]; auto.
Qed.

(** X2. Analysing the same declaration twice: when [name] evaluates to a
    string, the second run, started in the world the first one left,
    returns what the first returned and registers the same pair once
    more. *)
Theorem analyze_twice this clazz decorator w id arg pipeNameExpr pipeName :
  ts.name clazz = Some id ->
  Decorator.args decorator = Some [arg] ->
  isObjectLiteralExpression (unwrapExpression arg) = true ->
  reflectObjectLiteral (unwrapExpression arg) !! "name" = Some pipeNameExpr ->
  evaluate (evaluator this) pipeNameExpr = VString pipeName ->
  let pipe := {| ScopePipe.ref := {| Reference.node := clazz |};
                 ScopePipe.name := pipeName |} in
  let first := analyze this clazz decorator w in
  let second := analyze this clazz decorator first.1 in
  second.2 = first.2
  /\ scopeRegistry second.1
     = registerPipe pipe (registerPipe pipe (scopeRegistry w)).
Proof.
  intros Hname Hargs Hlit Hfield Hstring pipe first second.
  assert (Hkeeps : forall w0,
            scopeRegistry (analyze this clazz decorator w0).1
            = registerPipe pipe (scopeRegistry w0)).
  { intros w0.
    rewrite (analyze_after_registration this clazz decorator w0 id arg
               pipeNameExpr pipeName Hname Hargs Hlit Hfield Hstring).
    match goal with |- context [bind ?m ?k] =>
      assert (Hk : keepsRegistry (bind m k))
    end.
    { apply keepsRegistry_bind; [apply keepsRegistry_analyzePure|].
      intros pure.
      apply keepsRegistry_bind; [apply keepsRegistry_dependencies|].
      intros deps.
      apply keepsRegistry_bind; [apply keepsRegistry_metadata|].
      intros metadataStmt. apply keepsRegistry_ret. }
    destruct (Hk (registered clazz pipeName pipeNameExpr w0)) as [Hreg _].
    exact Hreg. }
  split.
  - subst first second. revert Hname Hargs Hlit Hfield Hstring. clear.
    intros _ _ _ _ _.
    generalize (analyze this clazz decorator w).1. intros w'.
    analyze_paths; reflexivity.
  - subst second. rewrite Hkeeps. subst first. rewrite Hkeeps. reflexivity.
Qed.

(** *** [analyze], then [compile] *)

(** X12. The statements of the artifact compiled from a successful
    analysis: those of the pipe compiler for the record, followed by the
    statement the metadata generator returned for the class, if any.
    The class handed to [compile] plays no part. *)
Theorem analyze_compile_statements this clazz decorator w output node :
  (analyze this clazz decorator w).2 = inr output ->
  CompileResult.statements (compile this node (AnalysisOutput.analysis output))
  = R3PipeDef.statements
      (compilePipeFromMetadata
         (PipeHandlerData.meta (AnalysisOutput.analysis output)))
    ++ option_list
         (generateSetClassMetadataCall clazz (reflector this) (isCore this)).
Proof.
  revert output. analyze_paths; intros output Hrun; try discriminate Hrun;
    injection Hrun as <-; unfold compile; simpl.
  all: destruct (generateSetClassMetadataCall clazz (reflector this)
                   (isCore this)); simpl;
       [reflexivity | symmetry; apply app_nil_r].
Qed.

(** X13. When [analyze] returns a record: exactly when the class is
    named, the decorator has one argument that unwraps to an object
    literal, [name] is there and evaluates to a string, [pure] is absent
    or evaluates to a boolean, and the dependencies resolve.  What the
    registry holds plays no part. *)
Theorem analyze_succeeds_iff this clazz decorator w :
  (exists output, (analyze this clazz decorator w).2 = inr output)
  <->
  (exists id arg pipeNameExpr pipeName deps,
     ts.name clazz = Some id
     /\ Decorator.args decorator = Some [arg]
     /\ isObjectLiteralExpression (unwrapExpression arg) = true
     /\ reflectObjectLiteral (unwrapExpression arg) !! "name"
        = Some pipeNameExpr
     /\ evaluate (evaluator this) pipeNameExpr = VString pipeName
     /\ match reflectObjectLiteral (unwrapExpression arg) !! "pure" with
        | Some expr => exists b, evaluate (evaluator this) expr = VBoolean b
        | None => True
        end
     /\ getValidConstructorDependencies clazz (reflector this) (isCore this)
        = inr deps).
Proof.
  split.
  - intros [output Hrun]. revert output Hrun.
    analyze_paths; intros output Hrun; try discriminate Hrun.
    all: apply negb_false_iff in Heqb.
    all: do 5 eexists; repeat split; try eassumption.
    all: match goal with
         | Hp : ?m !! "pure" = _ |- context [?m !! "pure"] => rewrite Hp
         end; eauto.
  - intros (id & arg & pipeNameExpr & pipeName & deps & Hname & Hargs & Hlit
            & Hfield & Hstring & Hpure & Hdeps).
    destruct (reflectObjectLiteral (unwrapExpression arg) !! "pure")
      as [expr|] eqn:Hfieldp.
    + destruct Hpure as [b Hb]. eexists.
      eapply analyze_succeeds; eauto using analyzePure_boolean.
    + eexists. eapply analyze_succeeds; eauto using analyzePure_absent.
Qed.

(** ** Further properties of [detect] *)

(** X10. The first match wins: on two lists put end to end, [detect]
    returns the match of the first list when it has one, and otherwise
    what it finds in the second. *)
Theorem detect_app (Declaration : Type) this (node : Declaration)
    (before after : list Decorator) :
  detect this node (Some (before ++ after))
  = match detect this node (Some before) with
    | Some result => Some result
    | None => detect this node (Some after)
    end.
Proof.
  unfold detect. induction before as [|d before IH]; simpl.
  - reflexivity.
  - destruct (isPipeDecorator this d); [reflexivity | exact IH].
Qed.

(** X11. When the handler compiles the core package, the origin of a
    decorator is not asked for: [detect] finds a match exactly when some
    decorator of the list is called [Pipe]. *)
Theorem detect_in_core (Declaration : Type) this (node : Declaration)
    (decorators : list Decorator) :
  isCore this = true ->
  (is_Some (detect this node (Some decorators))
   <-> Exists (fun d => Decorator.name d = "Pipe") decorators).
Proof.
  intros Hcore. unfold detect.
  induction decorators as [|d decorators IH]; simpl.
  - split; [intros [r Hr]; discriminate | inversion 1].
  - unfold isPipeDecorator at 1. rewrite Hcore. simpl. rewrite andb_true_r.
    destruct (String.eqb (Decorator.name d) "Pipe") eqn:Hname.
    + apply String.eqb_eq in Hname. split; [|eexists; reflexivity].
      intros _. apply Exists_cons_hd. exact Hname.
    + apply String.eqb_neq in Hname. rewrite IH. split.
      * intros Hex. apply Exists_cons_tl. exact Hex.
      * inversion 1; [contradiction | assumption].
Qed.

End Properties.

(** ** The statements above, run on [Scenario] *)

(** An anonymous class is rejected before its decorator is looked at. *)
Lemma analyze_anonymous_class_witness :
  analyze (Scenario.handler false) Scenario.anonymous
    (Scenario.Pipe (Some [Scenario.nameOnly])) Scenario.world0
  = (Scenario.world0,
     inl {| FatalDiagnosticError.code := DECORATOR_ON_ANONYMOUS_CLASS;
            FatalDiagnosticError.node := AtClass Scenario.anonymous;
            FatalDiagnosticError.message := "@Pipes must have names" |}).
Proof.
  apply (analyze_anonymous_class (Scenario.handler false) Scenario.anonymous
           (Scenario.Pipe (Some [Scenario.nameOnly])) Scenario.world0).
  reflexivity.
Defined.

(** [@Pipe] without a call, [@Pipe()] and [@Pipe({...}, {...})] on
    [UpperCasePipe]: the world stays [world0], nothing was evaluated. *)
Lemma analyze_not_called_or_arity_wrong_witness :
  analyze (Scenario.handler false) Scenario.UpperCasePipe
    (Scenario.Pipe None) Scenario.world0
  = (Scenario.world0,
     inl {| FatalDiagnosticError.code := DECORATOR_NOT_CALLED;
            FatalDiagnosticError.node := AtDecorator "@angular/core";
            FatalDiagnosticError.message := "@Pipe must be called" |})
  /\ analyze (Scenario.handler false) Scenario.UpperCasePipe
       (Scenario.Pipe (Some [])) Scenario.world0
     = (Scenario.world0,
        inl {| FatalDiagnosticError.code := DECORATOR_ARITY_WRONG;
               FatalDiagnosticError.node := AtDecorator "@angular/core";
               FatalDiagnosticError.message :=
                 "@Pipe must have exactly one argument" |})
  /\ analyze (Scenario.handler false) Scenario.UpperCasePipe
       (Scenario.Pipe (Some [Scenario.nameOnly; Scenario.pureOnly]))
       Scenario.world0
     = (Scenario.world0,
        inl {| FatalDiagnosticError.code := DECORATOR_ARITY_WRONG;
               FatalDiagnosticError.node := AtDecorator "@angular/core";
               FatalDiagnosticError.message :=
                 "@Pipe must have exactly one argument" |}).
Proof.
  split; [|split].
  - apply (proj1 (analyze_not_called_or_arity_wrong
                    (Scenario.handler false) Scenario.UpperCasePipe
                    (Scenario.Pipe None) Scenario.world0
                    {| ts.text := "UpperCasePipe" |} eq_refl)).
    reflexivity.
  - apply (proj2 (analyze_not_called_or_arity_wrong
                    (Scenario.handler false) Scenario.UpperCasePipe
                    (Scenario.Pipe (Some [])) Scenario.world0
                    {| ts.text := "UpperCasePipe" |} eq_refl) []).
    + reflexivity.
    + simpl. discriminate.
  - apply (proj2 (analyze_not_called_or_arity_wrong
                    (Scenario.handler false) Scenario.UpperCasePipe
                    (Scenario.Pipe (Some [Scenario.nameOnly;
                                          Scenario.pureOnly]))
                    Scenario.world0
                    {| ts.text := "UpperCasePipe" |} eq_refl)
             [Scenario.nameOnly; Scenario.pureOnly]).
    + reflexivity.
    + simpl. discriminate.
Defined.

(** A variable reference in wrappers, [(config as any)], is not a literal
    (scenario 5 of the spec); [{ pure: true }] has no name (scenario 3).
    Both leave [world0]. *)
Lemma analyze_not_literal_or_name_missing_witness :
  analyze (Scenario.handler false) Scenario.UpperCasePipe
    (Scenario.Pipe (Some [Scenario.wrappedReference])) Scenario.world0
  = (Scenario.world0,
     inl {| FatalDiagnosticError.code := DECORATOR_ARG_NOT_LITERAL;
            FatalDiagnosticError.node :=
              AtExpression (Scenario.Identifier "config");
            FatalDiagnosticError.message :=
              "@Pipe must have a literal argument" |})
  /\ analyze (Scenario.handler false) Scenario.UpperCasePipe
       (Scenario.Pipe (Some [Scenario.pureOnly])) Scenario.world0
     = (Scenario.world0,
        inl {| FatalDiagnosticError.code := PIPE_MISSING_NAME;
               FatalDiagnosticError.node := AtExpression Scenario.pureOnly;
               FatalDiagnosticError.message :=
                 "@Pipe decorator is missing name field" |}).
Proof.
  split.
  - exact (proj1 (analyze_not_literal_or_name_missing
                    (Scenario.handler false) Scenario.UpperCasePipe
                    (Scenario.Pipe (Some [Scenario.wrappedReference]))
                    Scenario.world0
                    {| ts.text := "UpperCasePipe" |} Scenario.wrappedReference
                    eq_refl eq_refl) eq_refl).
  - exact (proj2 (analyze_not_literal_or_name_missing
                    (Scenario.handler false) Scenario.UpperCasePipe
                    (Scenario.Pipe (Some [Scenario.pureOnly])) Scenario.world0
                    {| ts.text := "UpperCasePipe" |} Scenario.pureOnly
                    eq_refl eq_refl) eq_refl ltac:(vm_compute; reflexivity)).
Defined.

(** [{ name: 42 }] and [{ name: 'uppercase', pure: 'no' }]. *)
Lemma analyze_value_has_wrong_type_witness :
  analyze (Scenario.handler false) Scenario.UpperCasePipe
    (Scenario.Pipe (Some [Scenario.nameNotString])) Scenario.world0
  = ({| scopeRegistry := [];
        calls := [CallEvaluate (Scenario.NumericLiteral "42")] |},
     inl {| FatalDiagnosticError.code := VALUE_HAS_WRONG_TYPE;
            FatalDiagnosticError.node :=
              AtExpression (Scenario.NumericLiteral "42");
            FatalDiagnosticError.message := "@Pipe.name must be a string" |})
  /\ exists e,
       (analyze (Scenario.handler false) Scenario.UpperCasePipe
          (Scenario.Pipe (Some [Scenario.pureNotBoolean])) Scenario.world0).2
       = inl e
       /\ FatalDiagnosticError.code e = VALUE_HAS_WRONG_TYPE.
Proof.
  split.
  - refine (proj1 (analyze_value_has_wrong_type
                     (Scenario.handler false) Scenario.UpperCasePipe
                     (Scenario.Pipe (Some [Scenario.nameNotString]))
                     Scenario.world0
                     {| ts.text := "UpperCasePipe" |} Scenario.nameNotString
                     (Scenario.NumericLiteral "42") _ _ _ _) _);
      try (vm_compute; reflexivity).
    intros s. discriminate.
  - refine (proj2 (analyze_value_has_wrong_type
                     (Scenario.handler false) Scenario.UpperCasePipe
                     (Scenario.Pipe (Some [Scenario.pureNotBoolean]))
                     Scenario.world0
                     {| ts.text := "UpperCasePipe" |} Scenario.pureNotBoolean
                     (Scenario.StringLiteral "uppercase") _ _ _ _)
              (Scenario.StringLiteral "no") _ _);
      try (vm_compute; reflexivity).
    intros b. discriminate.
Defined.

(** [{ name: 'uppercase', pure: 'no' }]: the analysis fails, and the
    registry holds the pipe. *)
Lemma analyze_registers_before_optional_fields_witness :
  (scopeRegistry
     (analyze (Scenario.handler false) Scenario.UpperCasePipe
        (Scenario.Pipe (Some [Scenario.pureNotBoolean])) Scenario.world0).1
   = [Scenario.uppercase]
   /\ exists later,
        calls
          (analyze (Scenario.handler false) Scenario.UpperCasePipe
             (Scenario.Pipe (Some [Scenario.pureNotBoolean]))
             Scenario.world0).1
        = CallEvaluate (Scenario.StringLiteral "uppercase")
          :: CallRegisterPipe Scenario.uppercase :: later)
  /\ analyze (Scenario.handler false) Scenario.UpperCasePipe
       (Scenario.Pipe (Some [Scenario.pureNotBoolean])) Scenario.world0
     = ({| scopeRegistry := [Scenario.uppercase];
           calls := [CallEvaluate (Scenario.StringLiteral "uppercase");
                     CallRegisterPipe Scenario.uppercase;
                     CallEvaluate (Scenario.StringLiteral "no")] |},
        inl {| FatalDiagnosticError.code := VALUE_HAS_WRONG_TYPE;
               FatalDiagnosticError.node :=
                 AtExpression (Scenario.StringLiteral "no");
               FatalDiagnosticError.message :=
                 "@Pipe.pure must be a boolean" |}).
Proof.
  pose proof (analyze_registers_before_optional_fields
                (Scenario.handler false) Scenario.UpperCasePipe
                (Scenario.Pipe (Some [Scenario.pureNotBoolean]))
                Scenario.world0
                {| ts.text := "UpperCasePipe" |} Scenario.pureNotBoolean
                (Scenario.StringLiteral "uppercase") "uppercase") as Hthm.
  destruct Hthm as [Hfirst Hfails]; try (vm_compute; reflexivity).
  split.
  - exact Hfirst.
  - refine (Hfails (Scenario.StringLiteral "no") _ _).
    + vm_compute. reflexivity.
    + intros b. discriminate.
Defined.

(** Scenario 2 of the spec, [{ name: 'uppercase', pure: false }], and
    the default on [{ name: 'uppercase' }]. *)
Lemma analyze_pure_flag_witness :
  (exists output,
     (analyze (Scenario.handler false) Scenario.UpperCasePipe
        (Scenario.Pipe (Some [Scenario.nameAndImpure])) Scenario.world0).2
     = inr output
     /\ R3PipeMetadata.pure
          (PipeHandlerData.meta (AnalysisOutput.analysis output)) = false)
  /\ (exists output,
        (analyze (Scenario.handler false) Scenario.UpperCasePipe
           (Scenario.Pipe (Some [Scenario.nameOnly])) Scenario.world0).2
        = inr output
        /\ R3PipeMetadata.pure
             (PipeHandlerData.meta (AnalysisOutput.analysis output)) = true).
Proof.
  split.
  - refine (proj2 (analyze_pure_flag
                     (Scenario.handler false) Scenario.UpperCasePipe
                     (Scenario.Pipe (Some [Scenario.nameAndImpure]))
                     Scenario.world0
                     {| ts.text := "UpperCasePipe" |} Scenario.nameAndImpure
                     (Scenario.StringLiteral "uppercase") "uppercase" []
                     _ _ _ _ _ _)
              Scenario.FalseKeyword false _ _);
      vm_compute; reflexivity.
  - refine (proj1 (analyze_pure_flag
                     (Scenario.handler false) Scenario.UpperCasePipe
                     (Scenario.Pipe (Some [Scenario.nameOnly]))
                     Scenario.world0
                     {| ts.text := "UpperCasePipe" |} Scenario.nameOnly
                     (Scenario.StringLiteral "uppercase") "uppercase" []
                     _ _ _ _ _ _) _);
      vm_compute; reflexivity.
Defined.

(** Scenario 1 of the spec. *)
Lemma analyze_compile_UpperCasePipe_witness :
  exists output,
    (analyze (Scenario.handler false) Scenario.UpperCasePipe
       (Scenario.Pipe (Some [Scenario.nameOnly])) Scenario.world0).2
    = inr output
    /\ R3PipeMetadata.name
         (PipeHandlerData.meta (AnalysisOutput.analysis output))
       = "UpperCasePipe"
    /\ R3PipeMetadata.pipeName
         (PipeHandlerData.meta (AnalysisOutput.analysis output))
       = "uppercase"
    /\ R3PipeMetadata.pure
         (PipeHandlerData.meta (AnalysisOutput.analysis output)) = true
    /\ R3PipeMetadata.deps
         (PipeHandlerData.meta (AnalysisOutput.analysis output)) = []
    /\ CompileResult.name
         (compile (Scenario.handler false) Scenario.UpperCasePipe
            (AnalysisOutput.analysis output)) = "ngPipeDef"
    /\ CompileResult.initializer
         (compile (Scenario.handler false) Scenario.UpperCasePipe
            (AnalysisOutput.analysis output)) = "definePipe(uppercase)".
Proof.
  destruct (analyze_compile_UpperCasePipe
              (Scenario.handler false) Scenario.UpperCasePipe
              (Scenario.Pipe (Some [Scenario.nameOnly])) Scenario.world0
              {| ts.text := "UpperCasePipe" |} Scenario.nameOnly
              (Scenario.StringLiteral "uppercase"))
    as (output & Hrun & Hname & HpipeName & Hpure & Hdeps & Hartifact & Hinit);
    try (vm_compute; reflexivity).
  exists output. repeat split; try assumption.
  rewrite Hinit. unfold compilePipeFromMetadata, Scenario.imports,
    Scenario.compilePipeFromMetadata. simpl. rewrite HpipeName. reflexivity.
Defined.

(** [@Injectable() @Pipe(...) @Pipe(...)]: the first [Pipe] of the core
    package is the match, and a [Pipe] of another package is none. *)
Lemma detect_selects_first_Pipe_witness :
  detect (Scenario.handler false) Scenario.UpperCasePipe
    (Some [Scenario.Injectable; Scenario.foreignPipe;
           Scenario.Pipe (Some [Scenario.nameOnly]); Scenario.Pipe None])
  = Some {| DetectResult.trigger := "@angular/core";
            DetectResult.metadata := Scenario.Pipe (Some [Scenario.nameOnly]) |}
  /\ detect (Scenario.handler false) Scenario.UpperCasePipe
       (Some [Scenario.Injectable; Scenario.foreignPipe]) = None.
Proof.
  destruct (detect_selects_first_Pipe Scenario.ClassDeclaration
              (Scenario.handler false) Scenario.UpperCasePipe)
    as (_ & Hsome & Hnone).
  assert (Hinjectable : ~ PipeOfCore (Scenario.handler false) Scenario.Injectable).
  { intros [Hn _]. discriminate Hn. }
  assert (Hforeign : ~ PipeOfCore (Scenario.handler false) Scenario.foreignPipe).
  { intros [_ [Hc | Hc]]; discriminate Hc. }
  split.
  - apply Hsome.
    exists [Scenario.Injectable; Scenario.foreignPipe],
           (Scenario.Pipe (Some [Scenario.nameOnly])), [Scenario.Pipe None].
    repeat split.
    + repeat constructor; assumption.
    + right. reflexivity.
  - apply Hnone. repeat constructor; assumption.
Defined.

(** ** The further properties, run on [Scenario] *)

(** [@Pipe({name: 'date', pure: true})] on [DatePipe] returns
    [dateOutput]. *)
Lemma date_analysis :
  (analyze (Scenario.handler false) Scenario.DatePipe
     (Scenario.Pipe (Some [Scenario.dateLiteral])) Scenario.world0).2
  = inr Scenario.dateOutput.
Proof.
  vm_compute. reflexivity.
Qed.

Lemma analyze_twice_witness :
  (analyze (Scenario.handler false) Scenario.UpperCasePipe
     (Scenario.Pipe (Some [Scenario.nameOnly]))
     (analyze (Scenario.handler false) Scenario.UpperCasePipe
        (Scenario.Pipe (Some [Scenario.nameOnly])) Scenario.world0).1).2
  = (analyze (Scenario.handler false) Scenario.UpperCasePipe
       (Scenario.Pipe (Some [Scenario.nameOnly])) Scenario.world0).2
  /\ scopeRegistry
       (analyze (Scenario.handler false) Scenario.UpperCasePipe
          (Scenario.Pipe (Some [Scenario.nameOnly]))
          (analyze (Scenario.handler false) Scenario.UpperCasePipe
             (Scenario.Pipe (Some [Scenario.nameOnly])) Scenario.world0).1).1
     = [Scenario.uppercase; Scenario.uppercase].
Proof.
  refine (analyze_twice (Scenario.handler false) Scenario.UpperCasePipe
            (Scenario.Pipe (Some [Scenario.nameOnly])) Scenario.world0
            {| ts.text := "UpperCasePipe" |} Scenario.nameOnly
            (Scenario.StringLiteral "uppercase") "uppercase" _ _ _ _ _);
    vm_compute; reflexivity.
Defined.

Lemma analyze_success_validated_witness :
  exists id arg pipeNameExpr,
    ts.name Scenario.DatePipe = Some id
    /\ Decorator.args (Scenario.Pipe (Some [Scenario.dateLiteral])) = Some [arg]
    /\ Scenario.isObjectLiteralExpression (Scenario.unwrapExpression arg) = true
    /\ Scenario.reflectObjectLiteral (Scenario.unwrapExpression arg) !! "name"
       = Some pipeNameExpr
    /\ Scenario.evaluate pipeNameExpr = VString "date"
    /\ "DatePipe" = ts.text id
    /\ {| WrappedNodeExpr.node := {| ts.text := "DatePipe" |} |}
       = {| WrappedNodeExpr.node := id |}
    /\ match
         Scenario.reflectObjectLiteral (Scenario.unwrapExpression arg) !! "pure"
       with
       | Some expr => Scenario.evaluate expr = VBoolean true
       | None => true = true
       end
    /\ Scenario.getValidConstructorDependencies Scenario.DatePipe tt false
       = inr ["Locale"]
    /\ Some "setClassMetadata(DatePipe)"
       = Scenario.generateSetClassMetadataCall Scenario.DatePipe tt false.
Proof.
  exact (analyze_success_validated (Scenario.handler false) Scenario.DatePipe
           (Scenario.Pipe (Some [Scenario.dateLiteral])) Scenario.world0
           Scenario.dateOutput date_analysis).
Defined.

Lemma analyze_success_registers_witness :
  scopeRegistry
    (analyze (Scenario.handler false) Scenario.DatePipe
       (Scenario.Pipe (Some [Scenario.dateLiteral])) Scenario.world0).1
  = [{| ScopePipe.ref := {| Reference.node := Scenario.DatePipe |};
        ScopePipe.name := "date" |}].
Proof.
  exact (analyze_success_registers (Scenario.handler false) Scenario.DatePipe
           (Scenario.Pipe (Some [Scenario.dateLiteral])) Scenario.world0
           Scenario.dateOutput date_analysis).
Defined.

Lemma analyze_success_calls_witness :
  exists arg pipeNameExpr,
    Decorator.args (Scenario.Pipe (Some [Scenario.dateLiteral])) = Some [arg]
    /\ Scenario.reflectObjectLiteral (Scenario.unwrapExpression arg) !! "name"
       = Some pipeNameExpr
    /\ calls
         (analyze (Scenario.handler false) Scenario.DatePipe
            (Scenario.Pipe (Some [Scenario.dateLiteral])) Scenario.world0).1
       = [] ++ [CallEvaluate pipeNameExpr;
                CallRegisterPipe
                  {| ScopePipe.ref := {| Reference.node := Scenario.DatePipe |};
                     ScopePipe.name := "date" |}]
         ++ match
              Scenario.reflectObjectLiteral (Scenario.unwrapExpression arg)
                !! "pure"
            with
            | Some expr => [CallEvaluate expr]
            | None => []
            end
         ++ [CallGetValidConstructorDependencies Scenario.DatePipe;
             CallGenerateSetClassMetadataCall Scenario.DatePipe].
Proof.
  exact (analyze_success_calls (Scenario.handler false) Scenario.DatePipe
           (Scenario.Pipe (Some [Scenario.dateLiteral])) Scenario.world0
           Scenario.dateOutput date_analysis).
Defined.

Lemma analyze_compile_statements_witness :
  CompileResult.statements
    (compile (Scenario.handler false) Scenario.anonymous
       (AnalysisOutput.analysis Scenario.dateOutput))
  = ["setClassMetadata(DatePipe)"].
Proof.
  exact (analyze_compile_statements (Scenario.handler false) Scenario.DatePipe
           (Scenario.Pipe (Some [Scenario.dateLiteral])) Scenario.world0
           Scenario.dateOutput Scenario.anonymous date_analysis).
Defined.

(** [{ pure: true }]: the failure is one of the handler's own. *)
Lemma analyze_failure_codes_witness :
  In PIPE_MISSING_NAME
    [DECORATOR_ON_ANONYMOUS_CLASS; DECORATOR_NOT_CALLED;
     DECORATOR_ARITY_WRONG; DECORATOR_ARG_NOT_LITERAL;
     PIPE_MISSING_NAME; VALUE_HAS_WRONG_TYPE]
  \/ Scenario.getValidConstructorDependencies Scenario.UpperCasePipe tt false
     = inl {| FatalDiagnosticError.code := PIPE_MISSING_NAME;
              FatalDiagnosticError.node := AtExpression Scenario.pureOnly;
              FatalDiagnosticError.message :=
                "@Pipe decorator is missing name field" |}.
Proof.
  refine (analyze_failure_codes (Scenario.handler false) Scenario.UpperCasePipe
            (Scenario.Pipe (Some [Scenario.pureOnly])) Scenario.world0
            {| FatalDiagnosticError.code := PIPE_MISSING_NAME;
               FatalDiagnosticError.node := AtExpression Scenario.pureOnly;
               FatalDiagnosticError.message :=
                 "@Pipe decorator is missing name field" |} _).
  vm_compute. reflexivity.
Defined.

(** With the strict resolver, a constructor parameter without a token:
    the pipe is registered, the resolver fails, and that is the end. *)
Lemma analyze_dependency_failure_witness :
  analyze (H := Scenario.strictImports) (Scenario.handler false)
    Scenario.UpperCasePipeUntyped
    (Scenario.Pipe (Some [Scenario.nameAndImpure])) Scenario.world0
  = ({| scopeRegistry :=
          [{| ScopePipe.ref :=
                {| Reference.node := Scenario.UpperCasePipeUntyped |};
              ScopePipe.name := "uppercase" |}];
        calls :=
          [CallEvaluate (Scenario.StringLiteral "uppercase");
           CallRegisterPipe
             {| ScopePipe.ref :=
                  {| Reference.node := Scenario.UpperCasePipeUntyped |};
                ScopePipe.name := "uppercase" |};
           CallEvaluate Scenario.FalseKeyword;
           CallGetValidConstructorDependencies Scenario.UpperCasePipeUntyped] |},
     inl {| FatalDiagnosticError.code := DEPENDENCY_RESOLUTION_FAILED;
            FatalDiagnosticError.node := AtClass Scenario.UpperCasePipeUntyped;
            FatalDiagnosticError.message := "No suitable injection token" |}).
Proof.
  refine (analyze_dependency_failure (imports := Scenario.strictImports)
            (Scenario.handler false) Scenario.UpperCasePipeUntyped
            (Scenario.Pipe (Some [Scenario.nameAndImpure])) Scenario.world0
            {| ts.text := "UpperCasePipe" |} Scenario.nameAndImpure
            (Scenario.StringLiteral "uppercase") "uppercase" _
            _ _ _ _ _ _ _);
    try (vm_compute; reflexivity).
  vm_compute. exists false. reflexivity.
Defined.

(** In core mode a [Pipe] of any origin is a match. *)
Lemma detect_in_core_witness :
  is_Some (detect (Scenario.handler true) Scenario.UpperCasePipe
             (Some [Scenario.Injectable; Scenario.foreignPipe]))
  <-> Exists (fun d => Decorator.name d = "Pipe")
        [Scenario.Injectable; Scenario.foreignPipe].
Proof.
  apply (detect_in_core Scenario.ClassDeclaration (Scenario.handler true)
           Scenario.UpperCasePipe [Scenario.Injectable; Scenario.foreignPipe]).
  reflexivity.
Defined.
